(** * A model of the "@NTC" GPS-tracker ingestion server (src/main.py)

    The server is one Python module.  It is embedded here function by
    function:
    - [xor_sum]            : the XOR checksum (main.py lines 13-17);
    - [make_handshake]     : the handshake encoder (lines 19-48);
    - [handshake_step]     : the handshake half of [handle] (lines 50-71);
    - [stream_step]        : one iteration of the read loop of
                             [parse_device_data] (lines 77-97);
    - [pack_data]          : the record sent to the log sink (lines 99-107);
    - [run]                : a whole connection, as a state machine driven by
                             the successive results of [reader.read(100)].

    Python [bytes] are [list byte]; Python [int]s are [N] or [Z]; the ASCII
    text produced by [bytes.decode('ascii')] is a [string].  Exceptions are
    the constructors of [exn]; a Python function that may raise returns
    [exn + A]. *)

From Stdlib Require Import List Bool NArith ZArith Lia String Ascii.
From Stdlib Require Import Strings.Byte.
From Stdlib Require Import Floats Uint63 Permutation.
Import ListNotations.

Open Scope list_scope.

(** ** Python values used by the module *)

(** The exceptions that the code can raise. *)
Inductive exn :=
| OverflowError        (** [int.to_bytes] with a too large value *)
| ValueError           (** a bytearray item outside [range(0, 256)] *)
| IndexError           (** a list or bytearray index out of range *)
| RuntimeError         (** raised by [make_handshake] around checksum code *)
| TypeError            (** [writer.write] given a non-bytes object *)
| UnicodeDecodeError   (** [bytes.decode('ascii')] on a byte >= 0x80 *)
| StructError.         (** [struct.unpack] on a buffer of the wrong size *)

Definition bytes := list byte.

(** [bytes(s)] for a literal ASCII byte string [b"..."]. *)
Definition b (s : string) : bytes := list_byte_of_string s.

(** Python slicing [l[i:j]] for [0 <= i <= j]: it never raises and stops
    at the end of the sequence. *)
Definition py_slice {A} (l : list A) (i j : nat) : list A :=
  firstn (j - i) (skipn i l).

(** ** The checksum: [xor_sum] (lines 13-17)

    [temp_sum = 0; for byte in buffer: temp_sum ^= byte; return temp_sum] *)
Definition xor_sum (buffer : bytes) : N :=
  fold_left (fun temp_sum byte => N.lxor temp_sum (Byte.to_N byte)) buffer 0%N.

(** ** Mutating a [bytearray] *)

(** [header.append(v)]: [ValueError] unless [0 <= v < 256]. *)
Definition bytearray_append (h : bytes) (v : N) : exn + bytes :=
  match Byte.of_N v with
  | Some x => inr (h ++ [x])
  | None => inl ValueError
  end.

Fixpoint list_set {A} (l : list A) (i : nat) (x : A) : list A :=
  match l, i with
  | [], _ => []
  | _ :: t, O => x :: t
  | y :: t, S i' => y :: list_set t i' x
  end.

(** [header[i] = v] for [i >= 0]: [IndexError] when [i >= len(header)],
    [ValueError] when [v] is not a byte value. *)
Definition bytearray_setitem (h : bytes) (i : nat) (v : N) : exn + bytes :=
  if Nat.leb (List.length h) i then inl IndexError
  else match Byte.of_N v with
       | Some x => inr (list_set h i x)
       | None => inl ValueError
       end.

(** [n.to_bytes(2, "little")] for [n >= 0]. *)
Definition byte_of_N_mod (n : N) : byte :=
  match Byte.of_N (n mod 256) with Some x => x | None => x00 end.

Definition to_bytes_2_little (n : nat) : exn + bytes :=
  let m := N.of_nat n in
  if N.leb 65536 m then inl OverflowError
  else inr [byte_of_N_mod m; byte_of_N_mod (m / 256)].

(** ** The handshake encoder: [make_handshake] (lines 19-48)

    Note the order of the parameters: [make_handshake(receiverId, senderId,
    data)] writes [senderId] at offsets 4..7 and [receiverId] at 8..11.
    The [isinstance(data, bytes)] test is implied by the type of [data].

    [make_handshake_try] is the body of the outer [try]; the two inner
    [try] blocks turn their exception into a [RuntimeError]. *)
Definition make_handshake_try (receiverId senderId data : bytes) : exn + bytes :=
  let header := b "@NTC" ++ senderId ++ receiverId in
  match to_bytes_2_little (List.length data) with
  | inl e => inl e
  | inr size =>
      let header := header ++ size in
      match bytearray_append header (xor_sum data) with
      | inl _ => inl RuntimeError
      | inr header =>
          let header := header ++ [x00] in
          match bytearray_setitem header 15 (xor_sum (firstn 15 header)) with
          | inl _ => inl RuntimeError
          | inr header => inr (header ++ data)
          end
      end
  end.

(** The fields of a [datetime.datetime]. *)
Record datetime := mkDatetime {
  dt_year : Z; dt_month : Z; dt_day : Z;
  dt_hour : Z; dt_minute : Z; dt_second : Z }.

(** The dictionary built by [pack_data]; it is logged as JSON. *)
Record telemetry := mkTelemetry {
  device_id : string;
  timestamp : datetime;     (** logged as [str(timestamp)] *)
  latitude : float;
  longitude : float;
  speed : Z }.

(** The events written to the log, which is also the telemetry sink. *)
Inductive log_event :=
| LConnected                     (** the "new connection" message *)
| LClientDisconnected            (** "Client ... has disconnected" *)
| LDeviceIdMissing               (** "Device id is missing" *)
| LHandshakeFailed (e : exn)     (** "Handshake creation failed: ..." *)
| LHandshakeGood                 (** "Handshake Good" *)
| LDisconnectedAfterHandshake    (** "Client ... disconnected after handshake" *)
| LBrokenData                    (** "Client ... sent broken data" *)
| LRecord (r : telemetry)        (** [logger.info(pack_data(...))] *)
| LUnhandled (e : exn).          (** an exception escaping [handle] *)

(** [make_handshake]: the outer [except Exception] logs and falls through,
    so the function returns [None]. *)
Definition make_handshake (receiverId senderId data : bytes)
  : list log_event * option bytes :=
  match make_handshake_try receiverId senderId data with
  | inl e => ([LHandshakeFailed e], None)
  | inr frame => ([], Some frame)
  end.

(** ** Text operations used by [handle] *)

(** [bytes.decode('ascii')]: fails on any byte [>= 0x80]. *)
Definition is_ascii_byte (x : byte) : bool := N.ltb (Byte.to_N x) 128.

Definition ascii_decode (data : bytes) : option string :=
  if forallb is_ascii_byte data then Some (string_of_list_byte data) else None.

(** [needle in data] for the two-byte needle [b"S:"], that is, [a] at some
    index [i] and [c] at [i+1]. *)
Fixpoint bytes_in2 (a c : byte) (data : bytes) : bool :=
  match data with
  | x :: ((y :: _) as rest) => (Byte.eqb x a && Byte.eqb y c) || bytes_in2 a c rest
  | _ => false
  end.

(** Put a character in front of the first piece of a split. *)
Definition push_first (ch : ascii) (pieces : list string) : list string :=
  match pieces with
  | [] => [String ch EmptyString]
  | p :: ps => String ch p :: ps
  end.

(** Python's [s.split(sep)] for a two-character separator [sep = a c]:
    the text is scanned from the left and cut at every non-overlapping
    occurrence of [sep]; the result always has at least one piece. *)
Fixpoint split2 (a c : ascii) (s : string) : list string :=
  match s with
  | EmptyString => [EmptyString]
  | String x s' =>
      match s' with
      | String y s'' =>
          if Ascii.eqb x a && Ascii.eqb y c
          then EmptyString :: split2 a c s''
          else push_first x (split2 a c s')
      | EmptyString => push_first x (split2 a c s')
      end
  end.

(** [text.split("S:")]. *)
Definition split_S (text : string) : list string := split2 "S" ":" text.

(** ** The session state machine *)

(** What the connection does: a log event, or bytes written to the peer. *)
Inductive action :=
| Log (e : log_event)
| Write (data : bytes).

(** The actions that write to the peer ([writer.write]). *)
Definition is_write (a : action) : bool :=
  match a with Write _ => true | Log _ => false end.

Inductive session_state :=
| AwaitingHandshake
| Streaming (device_id : string)
| Closed.

(** [idobj = data[4:8]], [iddc = data[8:12]] (lines 59-60): the sender and
    the receiver id of the inbound handshake. *)
Definition handshake_ids (data : bytes) : bytes * bytes :=
  (py_slice data 4 8, py_slice data 8 12).

(** The acknowledgement payload [b"*<S"]. *)
Definition ack : bytes := b "*<S".

(** The handshake half of [handle] (lines 52-71), given the result [data] of
    the first [reader.read(100)].

    - An empty read returns from [handle] (line 58).
    - [idobj = data[4:8]], [iddc = data[8:12]].
    - A missing [b"S:"] only logs a warning (line 62); the following
      [split("S:")[1]] then raises [IndexError].
    - [data.decode('ascii')] raises [UnicodeDecodeError] on a non-ASCII byte.
    - Neither exception is an [asyncio.IncompleteReadError], so both escape
      [handle]; the connection task ends.
    - [make_handshake(idobj, iddc, data=b"*<S")] may return [None]; then
      [writer.write(None)] raises [TypeError], which also escapes [handle].
    - Otherwise the reply is written, "Handshake Good" is logged and
      [parse_device_data] is entered with [device_id]. *)
Definition handshake_step (data : bytes) : list action * session_state :=
  match data with
  | [] => ([Log LConnected; Log LClientDisconnected], Closed)
  | _ :: _ =>
      let '(idobj, iddc) := handshake_ids data in
      let warn := if bytes_in2 "S" ":" data then [] else [Log LDeviceIdMissing] in
      match ascii_decode data with
      | None => (Log LConnected :: warn ++ [Log (LUnhandled UnicodeDecodeError)], Closed)
      | Some text =>
          match nth_error (split_S text) 1 with
          | None => (Log LConnected :: warn ++ [Log (LUnhandled IndexError)], Closed)
          | Some device_id =>
              let (logs, response) := make_handshake idobj iddc ack in
              match response with
              | None =>
                  (Log LConnected :: warn ++ map Log logs
                     ++ [Log (LUnhandled TypeError)], Closed)
              | Some response =>
                  (Log LConnected :: warn ++ map Log logs
                     ++ [Write response; Log LHandshakeGood], Streaming device_id)
              end
          end
      end
  end.

(** ** Telemetry frames *)

(** [struct.unpack('<I', buf)[0]]: [struct.error] unless [len(buf) == 4]. *)
Definition unpack_le32 (buf : bytes) : exn + Z :=
  match buf with
  | [b0; b1; b2; b3] =>
      inr (Z.of_N (Byte.to_N b0) + 256 * Z.of_N (Byte.to_N b1)
           + 65536 * Z.of_N (Byte.to_N b2) + 16777216 * Z.of_N (Byte.to_N b3))%Z
  | _ => inl StructError
  end.

(** The four unpacks of lines 85-90, in their order: timestamp at [8:12],
    latitude at [20:24], longitude at [24:28], speed at [28:32].  The
    [datetime.fromtimestamp] call that the source makes between the first
    and the second unpack is pure and does not raise on a 32-bit value, so
    it is applied after them, in [stream_step]. *)
Definition decode_telemetry (more_data : bytes) : exn + (Z * Z * Z * Z) :=
  match unpack_le32 (py_slice more_data 8 12) with
  | inl e => inl e
  | inr unpacked_timestamp =>
  match unpack_le32 (py_slice more_data 20 24) with
  | inl e => inl e
  | inr lat =>
  match unpack_le32 (py_slice more_data 24 28) with
  | inl e => inl e
  | inr lon =>
  match unpack_le32 (py_slice more_data 28 32) with
  | inl e => inl e
  | inr spd => inr (unpacked_timestamp, lat, lon, spd)
  end end end end.

(** Python's true division [a / b] of two [int]s below [2^53]: both are
    converted exactly to binary64 and divided with IEEE rounding. *)
Definition py_truediv (a c : Z) : float :=
  PrimFloat.div (PrimFloat.of_uint63 (Uint63.of_Z a)) (PrimFloat.of_uint63 (Uint63.of_Z c)).

(** [pack_data] (lines 99-107): the dictionary that is dumped as JSON. *)
Definition pack_data (device_id : string) (timestamp : datetime)
    (latitude longitude speed : Z) : telemetry :=
  {| device_id := device_id;
     timestamp := timestamp;
     latitude := py_truediv latitude 1000000;
     longitude := py_truediv longitude 1000000;
     speed := speed |}.

Open Scope Z_scope.

Section Session.

(** [datetime.datetime.fromtimestamp]: the platform's local-time
    conversion of Unix seconds. *)
Variable fromtimestamp : Z -> datetime.

(** One iteration of the [while True] loop of [parse_device_data]
    (lines 79-95), given the result [more_data] of [reader.read(100)] and
    the year of [datetime.datetime.now()] when the frame is processed.
    [break] closes the session; a record from another year is dropped
    without any log and the loop goes on. *)
Definition stream_step (device_id : string) (more_data : bytes) (now_year : Z)
  : list action * session_state :=
  match more_data with
  | [] => ([Log LDisconnectedAfterHandshake], Closed)
  | _ :: _ =>
      match decode_telemetry more_data with
      | inl _ => ([Log LBrokenData], Closed)
      | inr (unpacked_timestamp, lat, lon, spd) =>
          let timestamp := fromtimestamp unpacked_timestamp in
          if Z.eqb now_year (dt_year timestamp)
          then ([Log (LRecord (pack_data device_id timestamp lat lon spd))],
                Streaming device_id)
          else ([], Streaming device_id)
      end
  end.

(** One read of the connection: its bytes and the current year when it
    is processed (the year matters only in [Streaming]). *)
Definition input := (bytes * Z)%type.

Definition step (st : session_state) (i : input) : list action * session_state :=
  match st with
  | AwaitingHandshake => handshake_step (fst i)
  | Streaming dev => stream_step dev (fst i) (snd i)
  | Closed => ([], Closed)
  end.

(** Run a connection over the successive reads.  Once [Closed], no more
    reads are made: the remaining inputs are returned unread. *)
Fixpoint run (st : session_state) (inputs : list input)
  : list action * session_state * list input :=
  match st with
  | Closed => ([], Closed, inputs)
  | _ =>
      match inputs with
      | [] => ([], st, [])
      | i :: rest =>
          let (acts, st') := step st i in
          let '(acts', st'', unread) := run st' rest in
          (acts ++ acts', st'', unread)
      end
  end.

End Session.

(** ** A concrete [fromtimestamp]: UTC, by the days-to-civil algorithm *)

Definition civil_from_days (z : Z) : Z * Z * Z :=
  let z := z + 719468 in
  let era := z / 146097 in
  let doe := z - era * 146097 in
  let yoe := (doe - doe / 1460 + doe / 36524 - doe / 146096) / 365 in
  let y := yoe + era * 400 in
  let doy := doe - (365 * yoe + yoe / 4 - yoe / 100) in
  let mp := (5 * doy + 2) / 153 in
  let d := doy - (153 * mp + 2) / 5 + 1 in
  let m := if Z.ltb mp 10 then mp + 3 else mp - 9 in
  (if Z.leb m 2 then y + 1 else y, m, d).

Definition utc_fromtimestamp (ts : Z) : datetime :=
  let '(y, m, d) := civil_from_days (ts / 86400) in
  let s := ts mod 86400 in
  {| dt_year := y; dt_month := m; dt_day := d;
     dt_hour := s / 3600; dt_minute := (s mod 3600) / 60; dt_second := s mod 60 |}.

(** The little-endian 32-bit value of [f[i:i+4]], read byte by byte. *)
Definition le32_at (f : bytes) (i : nat) : Z :=
  Z.of_N (Byte.to_N (nth i f x00)) + 256 * Z.of_N (Byte.to_N (nth (i + 1) f x00))
  + 65536 * Z.of_N (Byte.to_N (nth (i + 2) f x00))
  + 16777216 * Z.of_N (Byte.to_N (nth (i + 3) f x00)).

(** The 32-byte telemetry frame of the spec's example: timestamp 0 at
    [8:12], [40 00 00 00] at [20:24], [2A 00 00 00] at [24:28] and
    [05 00 00 00] at [28:32]. *)
Definition example_frame : bytes :=
  repeat x00 20 ++ [x40; x00; x00; x00; x2a; x00; x00; x00; x05; x00; x00; x00].

(** * Properties *)

Close Scope Z_scope.

(** ** Checksum values are bytes *)

Lemma lxor_lt_256 (a c : N) : (a < 256)%N -> (c < 256)%N -> (N.lxor a c < 256)%N.
Proof.
  intros Ha Hc.
  assert (L : forall x, (x < 2 ^ 8)%N -> (N.log2 x < 8)%N).
  { intros x Hx. destruct (N.eq_dec x 0) as [->|Hx0]; [reflexivity|].
    apply N.log2_lt_pow2; lia. }
  destruct (N.eq_dec (N.lxor a c) 0) as [E|E]; [rewrite E; lia|].
  change 256%N with (2 ^ 8)%N in *.
  apply N.log2_lt_pow2; [lia|].
  pose proof (N.log2_lxor a c). pose proof (L a Ha). pose proof (L c Hc). lia.
Qed.

Lemma xor_sum_lt_256 (buffer : bytes) : (xor_sum buffer < 256)%N.
Proof.
  unfold xor_sum.
  assert (G : forall acc, (acc < 256)%N ->
            (fold_left (fun t x => N.lxor t (Byte.to_N x)) buffer acc < 256)%N).
  { induction buffer as [|x l IH]; intros acc Hacc; simpl; [exact Hacc|].
    apply IH, lxor_lt_256; [exact Hacc|].
    pose proof (Byte.to_N_bounded x). lia. }
  apply G. lia.
Qed.

Lemma byte_of_xor_sum (buffer : bytes) :
  exists x, Byte.of_N (xor_sum buffer) = Some x /\ Byte.to_N x = xor_sum buffer.
Proof.
  destruct (Byte.of_N (xor_sum buffer)) as [x|] eqn:E.
  - exists x. split; [reflexivity|]. now apply Byte.to_of_N.
  - apply Byte.of_N_None_iff in E. pose proof (xor_sum_lt_256 buffer). lia.
Qed.

Lemma list_set_length {A} (l : list A) i x : List.length (list_set l i x) = List.length l.
Proof.
  revert i. induction l as [|y l IH]; intros [|i]; simpl; auto.
Qed.

(** ** The encoder on its well-formed and its ill-formed inputs *)

Lemma make_handshake_oversized (receiverId senderId data : bytes) :
  (65535 < N.of_nat (List.length data))%N ->
  make_handshake receiverId senderId data = ([LHandshakeFailed OverflowError], None).
Proof.
  intros H. unfold make_handshake, make_handshake_try, to_bytes_2_little.
  replace (N.leb 65536 (N.of_nat (List.length data))) with true
    by (symmetry; apply N.leb_le; lia).
  reflexivity.
Qed.

Lemma make_handshake_short_ids (receiverId senderId data : bytes) :
  (N.of_nat (List.length data) <= 65535)%N ->
  List.length senderId + List.length receiverId < 8 ->
  make_handshake receiverId senderId data = ([LHandshakeFailed RuntimeError], None).
Proof.
  intros Hd Hid. unfold make_handshake, make_handshake_try, to_bytes_2_little.
  replace (N.leb 65536 (N.of_nat (List.length data))) with false
    by (symmetry; apply N.leb_gt; lia).
  destruct (byte_of_xor_sum data) as [x [Ex _]].
  unfold bytearray_append. rewrite Ex.
  unfold bytearray_setitem.
  match goal with |- context [Nat.leb ?n 15] => replace (Nat.leb n 15) with true end.
  - reflexivity.
  - symmetry. apply Nat.leb_le. rewrite !length_app. simpl. lia.
Qed.

Lemma make_handshake_ok (receiverId senderId data : bytes) :
  (N.of_nat (List.length data) <= 65535)%N ->
  8 <= List.length senderId + List.length receiverId ->
  exists header,
    make_handshake receiverId senderId data = ([], Some (header ++ data)) /\
    List.length header = 8 + List.length senderId + List.length receiverId.
Proof.
  intros Hd Hid. unfold make_handshake, make_handshake_try, to_bytes_2_little.
  replace (N.leb 65536 (N.of_nat (List.length data))) with false
    by (symmetry; apply N.leb_gt; lia).
  destruct (byte_of_xor_sum data) as [x [Ex _]].
  unfold bytearray_append. rewrite Ex.
  unfold bytearray_setitem.
  match goal with |- context [Nat.leb ?n 15] => replace (Nat.leb n 15) with false end.
  - match goal with |- context [Byte.of_N (xor_sum ?l)] =>
      destruct (byte_of_xor_sum l) as [y [Ey _]]; rewrite Ey end.
    eexists. split; [reflexivity|].
    rewrite list_set_length, !length_app. simpl. lia.
  - symmetry. apply Nat.leb_gt. rewrite !length_app. simpl. lia.
Qed.

Lemma length_4 {A} (l : list A) :
  List.length l = 4 -> exists a0 a1 a2 a3, l = [a0; a1; a2; a3].
Proof.
  intros H. do 4 (destruct l as [|? l]; [discriminate H|]).
  destruct l; [|discriminate H]. eauto.
Qed.

(** The header of a frame built from two 4-byte ids: the encoder does not
    fail, and the frame is the 16-byte header followed by the payload. *)
Lemma make_handshake_4_4 (r0 r1 r2 r3 s0 s1 s2 s3 : byte) (data : bytes) :
  (N.of_nat (List.length data) <= 65535)%N ->
  exists pc hc l0 l1,
    Byte.to_N pc = xor_sum data /\
    Byte.to_N hc = xor_sum [x40; x4e; x54; x43; s0; s1; s2; s3; r0; r1; r2; r3; l0; l1; pc] /\
    make_handshake [r0; r1; r2; r3] [s0; s1; s2; s3] data =
      ([], Some ([x40; x4e; x54; x43; s0; s1; s2; s3; r0; r1; r2; r3; l0; l1; pc; hc] ++ data)).
Proof.
  intros Hd. unfold make_handshake, make_handshake_try, to_bytes_2_little.
  replace (N.leb 65536 (N.of_nat (List.length data))) with false
    by (symmetry; apply N.leb_gt; lia).
  destruct (byte_of_xor_sum data) as [pc [Ep Hp]].
  unfold bytearray_append. rewrite Ep.
  unfold bytearray_setitem. cbn -[xor_sum Byte.of_N].
  match goal with |- context [Byte.of_N (xor_sum ?l)] =>
    destruct (byte_of_xor_sum l) as [hc [Eh Hh]]; rewrite Eh end.
  do 4 eexists. split; [exact Hp|]. split; [exact Hh|]. reflexivity.
Qed.

(** ** Claim C9 *)

(** C9: [xor_sum] returns an integer in [0..255] for every byte
    string, so neither [header.append(checksum_data)] nor
    [header[15] = checksum_header] can fail with an out-of-range value. *)
Theorem xor_sum_is_byte (buffer : bytes) :
  (xor_sum buffer < 256)%N /\
  (forall header, exists header', bytearray_append header (xor_sum buffer) = inr header') /\
  (forall header i, bytearray_setitem header i (xor_sum buffer) <> inl ValueError).
Proof.
  destruct (byte_of_xor_sum buffer) as [x [Ex _]].
  split; [apply xor_sum_lt_256|]. split.
  - intros header. unfold bytearray_append. rewrite Ex. eauto.
  - intros header i. unfold bytearray_setitem. rewrite Ex.
    destruct (Nat.leb _ i); discriminate.
Qed.

(** ** Claim C2 *)

(** C2: For 4-byte [senderId] and [receiverId] and a payload of at
    most 65535 bytes, [make_handshake(receiverId, senderId, payload)]
    returns a frame from which the slicing of [handle] recovers
    [senderId] at [4:8] and [receiverId] at [8:12]; the byte at offset 14
    is [xor_sum(payload)] and the byte at offset 15 is the [xor_sum] of
    the first 15 bytes of the frame. *)
Theorem handshake_roundtrip (senderId receiverId payload : bytes) :
  List.length senderId = 4 -> List.length receiverId = 4 ->
  (N.of_nat (List.length payload) <= 65535)%N ->
  exists frame,
    make_handshake receiverId senderId payload = ([], Some frame) /\
    handshake_ids frame = (senderId, receiverId) /\
    option_map Byte.to_N (nth_error frame 14) = Some (xor_sum payload) /\
    option_map Byte.to_N (nth_error frame 15) = Some (xor_sum (firstn 15 frame)).
Proof.
  intros Hs Hr Hp.
  destruct (length_4 _ Hs) as (s0 & s1 & s2 & s3 & ->).
  destruct (length_4 _ Hr) as (r0 & r1 & r2 & r3 & ->).
  destruct (make_handshake_4_4 r0 r1 r2 r3 s0 s1 s2 s3 payload Hp)
    as (pc & hc & l0 & l1 & Hpc & Hhc & E).
  rewrite E. eexists. split; [reflexivity|].
  split; [reflexivity|]. cbn -[xor_sum]. rewrite Hpc, Hhc. auto.
Qed.

Lemma handshake_roundtrip_witness :
  (let s := b "AAAA" in let r := b "BBBB" in let p := b "S:DEV01" in
   List.length s = 4 /\ List.length r = 4 /\ (N.of_nat (List.length p) <= 65535)%N) /\
  exists frame,
    make_handshake (b "BBBB") (b "AAAA") (b "S:DEV01") = ([], Some frame) /\
    handshake_ids frame = (b "AAAA", b "BBBB") /\
    option_map Byte.to_N (nth_error frame 14) = Some (xor_sum (b "S:DEV01")) /\
    option_map Byte.to_N (nth_error frame 15) = Some (xor_sum (firstn 15 frame)).
Proof.
  split; [vm_compute; repeat split; discriminate|].
  apply handshake_roundtrip; vm_compute; try reflexivity; discriminate.
Defined.

(** ** Claim C3 *)

(** C3: Amended: [make_handshake] never raises to its caller; it
    catches every failure, logs it and returns [None].  A payload longer
    than 65535 bytes gives a logged [OverflowError] and [None].  The ids
    are not length-checked: when their lengths add up to less than 8 the
    encoder logs a [RuntimeError] and returns [None]; otherwise it returns
    a frame of [8 + len(senderId) + len(receiverId) + len(payload)]
    bytes, also when an id is not 4 bytes long. *)
Theorem make_handshake_outcomes (receiverId senderId data : bytes) :
  ((65535 < N.of_nat (List.length data))%N ->
     make_handshake receiverId senderId data = ([LHandshakeFailed OverflowError], None)) /\
  ((N.of_nat (List.length data) <= 65535)%N ->
   List.length senderId + List.length receiverId < 8 ->
     make_handshake receiverId senderId data = ([LHandshakeFailed RuntimeError], None)) /\
  ((N.of_nat (List.length data) <= 65535)%N ->
   8 <= List.length senderId + List.length receiverId ->
     exists frame, make_handshake receiverId senderId data = ([], Some frame) /\
       List.length frame =
         8 + List.length senderId + List.length receiverId + List.length data).
Proof.
  split; [apply make_handshake_oversized|]. split; [apply make_handshake_short_ids|].
  intros Hd Hid. destruct (make_handshake_ok receiverId senderId data Hd Hid) as [h [E L]].
  exists (h ++ data). split; [exact E|]. rewrite length_app, L. reflexivity.
Qed.

Lemma make_handshake_outcomes_witness :
  make_handshake [] [] (repeat x00 65536) = ([LHandshakeFailed OverflowError], None) /\
  make_handshake (b "BB") (b "AA") [] = ([LHandshakeFailed RuntimeError], None) /\
  exists frame, make_handshake (b "BBBB") (b "AAAAA") [] = ([], Some frame) /\
    List.length frame = 17.
Proof.
  destruct (make_handshake_outcomes [] [] (repeat x00 65536)) as [H1 _].
  destruct (make_handshake_outcomes (b "BB") (b "AA") []) as [_ [H2 _]].
  destruct (make_handshake_outcomes (b "BBBB") (b "AAAAA") []) as [_ [_ H3]].
  split; [apply H1; rewrite repeat_length; vm_compute; reflexivity|].
  split; [apply H2; vm_compute; [discriminate | repeat constructor]|].
  apply H3; vm_compute; [discriminate | repeat constructor].
Defined.

(** C3 as stated fails: an id of 5 bytes gives a frame instead of an
    error, and an oversized payload is logged and swallowed into [None]. *)
Lemma make_handshake_no_invalid_argument :
  (exists frame, make_handshake (b "BBBB") (b "AAAAA") [] = ([], Some frame)
                 /\ List.length frame = 17) /\
  make_handshake (b "BBBB") (b "AAAA") (repeat x00 65536)
    = ([LHandshakeFailed OverflowError], None).
Proof.
  split.
  - eexists. split; [vm_compute; reflexivity | reflexivity].
  - vm_compute. reflexivity.
Qed.

(** ** The handshake handler *)

Lemma string_of_list_byte_cons (x : byte) (l : bytes) :
  string_of_list_byte (x :: l) = String (ascii_of_byte x) (string_of_list_byte l).
Proof. reflexivity. Qed.

Lemma ascii_eqb_of_byte (x y : byte) :
  Ascii.eqb (ascii_of_byte x) (ascii_of_byte y) = Byte.eqb x y.
Proof.
  destruct (Byte.eqb x y) eqn:E.
  - apply Byte.byte_dec_bl in E. subst. apply Ascii.eqb_refl.
  - apply Ascii.eqb_neq. intros H. apply Byte.eqb_false in E. apply E.
    rewrite <- (byte_of_ascii_of_byte x), <- (byte_of_ascii_of_byte y), H.
    reflexivity.
Qed.

Lemma push_first_not_nil (ch : ascii) (l : list string) : push_first ch l <> [].
Proof. destruct l; discriminate. Qed.

Lemma split2_not_nil (a c : ascii) (s : string) : split2 a c s <> [].
Proof.
  destruct s as [|x [|y s]]; simpl.
  - discriminate.
  - discriminate.
  - destruct (Ascii.eqb x a && Ascii.eqb y c); [discriminate|].
    apply push_first_not_nil.
Qed.

Lemma split2_cons2 (a c x y : ascii) (s : string) :
  split2 a c (String x (String y s)) =
  if Ascii.eqb x a && Ascii.eqb y c then EmptyString :: split2 a c s
  else push_first x (split2 a c (String y s)).
Proof. reflexivity. Qed.

Lemma bytes_in2_cons2 (a c x y : byte) (l : bytes) :
  bytes_in2 a c (x :: y :: l) = (Byte.eqb x a && Byte.eqb y c) || bytes_in2 a c (y :: l).
Proof. reflexivity. Qed.

Lemma push_first_length (ch : ascii) (l : list string) :
  l <> [] -> List.length (push_first ch l) = List.length l.
Proof. destruct l; [contradiction | reflexivity]. Qed.

(** If [b"S:" in data], then [data.decode('ascii').split("S:")] has a
    piece at index 1. *)
Lemma split_S_has_second (data : bytes) :
  bytes_in2 "S" ":" data = true ->
  exists dev, nth_error (split_S (string_of_list_byte data)) 1 = Some dev.
Proof.
  unfold split_S.
  assert (G : forall n data, List.length data <= n -> bytes_in2 "S" ":" data = true ->
            2 <= List.length (split2 "S" ":" (string_of_list_byte data))).
  { induction n as [|n IH]; intros d Hn Hin.
    - destruct d; [discriminate Hin | simpl in Hn; lia].
    - destruct d as [|x [|y d]]; try discriminate Hin.
      rewrite !string_of_list_byte_cons, split2_cons2.
      change "S"%char with (ascii_of_byte "S"%byte).
      change ":"%char with (ascii_of_byte ":"%byte).
      rewrite !ascii_eqb_of_byte.
      rewrite bytes_in2_cons2 in Hin. destruct (Byte.eqb x "S" && Byte.eqb y ":").
      + simpl. pose proof (split2_not_nil (ascii_of_byte "S") (ascii_of_byte ":")
                             (string_of_list_byte d)).
        destruct (split2 _ _ (string_of_list_byte d)); [contradiction | simpl; lia].
      + simpl in Hin. rewrite push_first_length by apply split2_not_nil.
        rewrite <- string_of_list_byte_cons. apply IH; [simpl in *; lia | exact Hin]. }
  intros Hin. specialize (G _ data (le_n _) Hin).
  destruct (split2 _ _ _) as [|p0 [|p1 ps]]; simpl in G; try lia. eexists; reflexivity.
Qed.

Lemma bytes_in2_app_r (a c : byte) (l1 l2 : bytes) :
  bytes_in2 a c l2 = true -> bytes_in2 a c (l1 ++ l2) = true.
Proof.
  intros H. induction l1 as [|x l1 IH]; [exact H|].
  destruct l1 as [|y l1]; simpl app in *.
  - destruct l2 as [|y l2]; [discriminate H|].
    rewrite bytes_in2_cons2, H, orb_true_r. reflexivity.
  - rewrite bytes_in2_cons2, IH, orb_true_r. reflexivity.
Qed.

Lemma py_slice_length_4 (data : bytes) (i : nat) :
  i + 4 <= List.length data -> List.length (py_slice data i (i + 4)) = 4.
Proof.
  intros H. unfold py_slice. rewrite length_firstn, length_skipn. lia.
Qed.

(** The handshake handler on an ASCII buffer of at least 12 bytes whose
    text has a piece at index 1 of its [split("S:")]. *)
Lemma handshake_step_streams (data : bytes) (dev : string) :
  12 <= List.length data -> forallb is_ascii_byte data = true ->
  nth_error (split_S (string_of_list_byte data)) 1 = Some dev ->
  exists response,
    snd (make_handshake (py_slice data 4 8) (py_slice data 8 12) ack) = Some response /\
    handshake_step data =
      (Log LConnected :: (if bytes_in2 "S" ":" data then [] else [Log LDeviceIdMissing])
         ++ [Write response; Log LHandshakeGood], Streaming dev).
Proof.
  intros Hlen Hasc Hdev.
  destruct (make_handshake_ok (py_slice data 4 8) (py_slice data 8 12) ack)
    as [h [E _]].
  { vm_compute. discriminate. }
  { pose proof (py_slice_length_4 data 4). pose proof (py_slice_length_4 data 8).
    simpl Nat.add in *. lia. }
  exists (h ++ ack). rewrite E. split; [reflexivity|].
  destruct data as [|x l]; [simpl in Hlen; lia|].
  unfold handshake_step, handshake_ids, ascii_decode.
  rewrite Hasc, Hdev, E. reflexivity.
Qed.

(** If the buffer has no ["S:"] before a final marker, the piece of
    [split("S:")] after the first marker starts right after it. *)
Lemma split_S_first_marker (pre rest : bytes) :
  bytes_in2 "S" ":" pre = false ->
  split_S (string_of_list_byte (pre ++ "S"%byte :: ":"%byte :: rest))
    = string_of_list_byte pre :: split_S (string_of_list_byte rest).
Proof.
  unfold split_S. induction pre as [|x pre IH]; intros Hin.
  - cbn [app]. rewrite !string_of_list_byte_cons, split2_cons2. reflexivity.
  - destruct pre as [|y pre].
    + cbn [app]. rewrite !string_of_list_byte_cons, split2_cons2.
      replace (Ascii.eqb (ascii_of_byte "S") ":") with false by reflexivity.
      rewrite andb_false_r, split2_cons2. reflexivity.
    + rewrite bytes_in2_cons2 in Hin. apply orb_false_iff in Hin as [Hxy Hrest].
      simpl app. rewrite !string_of_list_byte_cons, split2_cons2.
      change "S"%char with (ascii_of_byte "S"%byte).
      change ":"%char with (ascii_of_byte ":"%byte).
      rewrite !ascii_eqb_of_byte, Hxy.
      change (ascii_of_byte "S"%byte) with "S"%char.
      change (ascii_of_byte ":"%byte) with ":"%char.
      rewrite <- (string_of_list_byte_cons y (pre ++ _)). simpl app in IH. rewrite (IH Hrest).
      reflexivity.
Qed.

(** ** Claim C1 *)

(** C1: Amended: for every inbound handshake made of the magic ["@NTC"], a
    4-byte sender id, a 4-byte receiver id and further bytes containing
    ["S:"], whose bytes are all ASCII, the server writes one reply: it is
    19 bytes long, its ids at [4:8] and [8:12] are the inbound receiver and
    sender ids (swapped), and its payload [16:19] is [b"*<S"]. *)
Theorem handshake_reply_swaps_ids (senderId receiverId rest : bytes) :
  List.length senderId = 4 -> List.length receiverId = 4 ->
  forallb is_ascii_byte (b "@NTC" ++ senderId ++ receiverId ++ rest) = true ->
  bytes_in2 "S" ":" rest = true ->
  exists response dev,
    handshake_step (b "@NTC" ++ senderId ++ receiverId ++ rest)
      = ([Log LConnected; Write response; Log LHandshakeGood], Streaming dev) /\
    List.length response = 19 /\
    handshake_ids response = (receiverId, senderId) /\
    py_slice response 16 19 = ack.
Proof.
  intros Hs Hr Hasc Hin.
  assert (Hin' : bytes_in2 "S" ":" (b "@NTC" ++ senderId ++ receiverId ++ rest) = true)
    by (do 3 apply bytes_in2_app_r; exact Hin).
  destruct (split_S_has_second _ Hin') as [dev Hdev].
  assert (Hlen : 12 <= List.length (b "@NTC" ++ senderId ++ receiverId ++ rest))
    by (rewrite !length_app; simpl; lia).
  destruct (handshake_step_streams _ dev Hlen Hasc Hdev) as [response [Hresp Hstep]].
  rewrite Hin' in Hstep. exists response, dev. split; [exact Hstep|].
  destruct (length_4 _ Hs) as (s0 & s1 & s2 & s3 & ->).
  destruct (length_4 _ Hr) as (r0 & r1 & r2 & r3 & ->).
  destruct (make_handshake_4_4 s0 s1 s2 s3 r0 r1 r2 r3 ack)
    as (pc & hc & l0 & l1 & _ & _ & E); [vm_compute; discriminate|].
  change (py_slice (b "@NTC" ++ [s0; s1; s2; s3] ++ [r0; r1; r2; r3] ++ rest) 4 8)
    with [s0; s1; s2; s3] in Hresp.
  change (py_slice (b "@NTC" ++ [s0; s1; s2; s3] ++ [r0; r1; r2; r3] ++ rest) 8 12)
    with [r0; r1; r2; r3] in Hresp.
  rewrite E in Hresp. injection Hresp as <-.
  repeat split; reflexivity.
Qed.

Lemma handshake_reply_swaps_ids_witness :
  exists response dev,
    handshake_step (b "@NTC" ++ b "AAAA" ++ b "BBBB" ++ b "xxxxS:DEV01")
      = ([Log LConnected; Write response; Log LHandshakeGood], Streaming dev) /\
    List.length response = 19 /\
    handshake_ids response = (b "BBBB", b "AAAA") /\
    py_slice response 16 19 = ack.
Proof.
  apply handshake_reply_swaps_ids; vm_compute; reflexivity.
Defined.

(** C1 as stated fails: a sender id with a non-ASCII byte makes
    [data.decode('ascii')] raise, and no reply is written. *)
Lemma handshake_non_ascii_id_no_reply :
  handshake_step (b "@NTC" ++ [xff; x41; x41; x41] ++ b "BBBB" ++ b "xxxxS:DEV01")
    = ([Log LConnected; Log (LUnhandled UnicodeDecodeError)], Closed).
Proof. vm_compute. reflexivity. Qed.

(** ** Claim C4 *)

(** C4: Amended: the handshake handler never checks the magic.  Every
    ASCII buffer of at least 12 bytes that contains ["S:"] is answered with
    the handshake reply built from its bytes [4:8] and [8:12], and the
    session goes to [Streaming], whatever its first four bytes are. *)
Theorem handshake_ignores_magic (data : bytes) :
  12 <= List.length data -> forallb is_ascii_byte data = true ->
  bytes_in2 "S" ":" data = true ->
  exists response dev,
    snd (make_handshake (py_slice data 4 8) (py_slice data 8 12) ack) = Some response /\
    handshake_step data = ([Log LConnected; Write response; Log LHandshakeGood], Streaming dev).
Proof.
  intros Hlen Hasc Hin.
  destruct (split_S_has_second _ Hin) as [dev Hdev].
  destruct (handshake_step_streams _ dev Hlen Hasc Hdev) as [response [Hresp Hstep]].
  rewrite Hin in Hstep. exists response, dev. split; assumption.
Qed.

Lemma handshake_ignores_magic_witness :
  exists response dev,
    snd (make_handshake (b "AAAA") (b "BBBB") ack) = Some response /\
    handshake_step (b "XXXXAAAABBBBxxxxS:DEV01")
      = ([Log LConnected; Write response; Log LHandshakeGood], Streaming dev).
Proof.
  apply (handshake_ignores_magic (b "XXXXAAAABBBBxxxxS:DEV01"));
    [apply Nat.leb_le | |]; vm_compute; reflexivity.
Defined.

(** C4 as stated fails: the magic ["XXXX"] gives no [BadMagic]; the reply
    is written and the session streams. *)
Lemma handshake_bad_magic_accepted :
  exists response,
    handshake_step (b "XXXXAAAABBBBxxxxS:DEV01")
      = ([Log LConnected; Write response; Log LHandshakeGood], Streaming "DEV01").
Proof. eexists. vm_compute. reflexivity. Qed.

(** ** Claim C5 *)

(** C5: (code bug) the device id is [split("S:")[1]]: with a second ["S:"]
    in the buffer it stops there.  In a well-formed frame whose payload is
    ["S:ABS:CD"] (the header holds no ["S:"]), the text after the marker is
    ["ABS:CD"] but the session keeps ["AB"] as the device id. *)
Theorem device_id_cut_at_second_marker :
  exists frame,
    make_handshake (b "BBBB") (b "AAAA") (b "S:ABS:CD") = ([], Some frame) /\
    bytes_in2 "S" ":" (firstn 17 frame) = false /\
    ascii_decode frame = Some (string_of_list_byte (firstn 16 frame) ++ "S:ABS:CD")%string /\
    snd (handshake_step frame) = Streaming "AB".
Proof.
  eexists. split; [vm_compute; reflexivity|].
  vm_compute. repeat split.
Qed.

(** ** The read loop *)

Lemma unpack_le32_length (buf : bytes) (v : Z) :
  unpack_le32 buf = inr v -> List.length buf = 4.
Proof.
  unfold unpack_le32. intros H.
  do 4 (destruct buf as [|? buf]; [discriminate H|]).
  destruct buf; [reflexivity | discriminate H].
Qed.

(** A frame decodes only if it has at least 32 bytes. *)
Lemma decode_telemetry_length (more_data : bytes) v :
  decode_telemetry more_data = inr v -> 32 <= List.length more_data.
Proof.
  unfold decode_telemetry.
  destruct (unpack_le32 (py_slice more_data 8 12)); [discriminate|].
  destruct (unpack_le32 (py_slice more_data 20 24)); [discriminate|].
  destruct (unpack_le32 (py_slice more_data 24 28)); [discriminate|].
  destruct (unpack_le32 (py_slice more_data 28 32)) eqn:E; [discriminate|].
  intros _. apply unpack_le32_length in E.
  unfold py_slice in E. rewrite length_firstn, length_skipn in E. lia.
Qed.

(** One step of the loop from [Streaming dev] stays in [Streaming dev] or
    closes, and every record it emits carries [dev]. *)
Lemma stream_step_device_id fromtimestamp dev more_data now_year acts st :
  stream_step fromtimestamp dev more_data now_year = (acts, st) ->
  (st = Streaming dev \/ st = Closed) /\
  (forall r, In (Log (LRecord r)) acts -> device_id r = dev).
Proof.
  unfold stream_step. intros H.
  destruct more_data as [|x l].
  - injection H as <- <-. split; [right; reflexivity | intros r [E|[]]; discriminate].
  - destruct (decode_telemetry (x :: l)) as [e|[[[ts lat] lon] spd]].
    + injection H as <- <-. split; [right; reflexivity | intros r [E|[]]; discriminate].
    + destruct (Z.eqb now_year (dt_year (fromtimestamp ts))); injection H as <- <-;
        (split; [left; reflexivity|]).
      * intros r [E|[]]. injection E as <-. reflexivity.
      * intros r [].
Qed.

Lemma run_device_id fromtimestamp dev (inputs : list input) st :
  (st = Streaming dev \/ st = Closed) ->
  forall r, In (Log (LRecord r)) (fst (fst (run fromtimestamp st inputs))) ->
  device_id r = dev.
Proof.
  revert st. induction inputs as [|[more_data now_year] inputs IH]; intros st Hst r Hr.
  - destruct Hst as [->| ->]; destruct Hr.
  - destruct Hst as [->| ->]; [|destruct Hr].
    cbn [run step fst snd] in Hr.
    destruct (stream_step fromtimestamp dev more_data now_year) as [acts st'] eqn:E.
    apply stream_step_device_id in E as [Hst' Hacts].
    destruct (run fromtimestamp st' inputs) as [[acts' st''] unread] eqn:E'.
    simpl in Hr. apply in_app_or in Hr as [Hr|Hr]; [now apply Hacts|].
    apply (IH st' Hst'). rewrite E'. exact Hr.
Qed.

(** ** Claim C10 *)

(** C10: Amended: if the inbound buffer is all ASCII, at least 12 bytes
    long and ends with its only ["S:"], the handshake succeeds with the
    empty device id, the session goes to [Streaming ""], and every record
    the session emits carries the device id [""]. *)
Theorem empty_device_id (fromtimestamp : Z -> datetime) (pre : bytes)
    (now_year : Z) (inputs : list input) :
  12 <= List.length (pre ++ b "S:") ->
  forallb is_ascii_byte (pre ++ b "S:") = true ->
  bytes_in2 "S" ":" pre = false ->
  snd (handshake_step (pre ++ b "S:")) = Streaming "" /\
  forall r, In (Log (LRecord r))
              (fst (fst (run fromtimestamp AwaitingHandshake
                           ((pre ++ b "S:", now_year) :: inputs)))) ->
            device_id r = ""%string.
Proof.
  intros Hlen Hasc Hpre.
  assert (Hdev : nth_error (split_S (string_of_list_byte (pre ++ b "S:"))) 1 = Some ""%string).
  { change (b "S:") with ["S"%byte; ":"%byte].
    rewrite (split_S_first_marker pre [] Hpre). reflexivity. }
  destruct (handshake_step_streams _ _ Hlen Hasc Hdev) as [response [_ Hstep]].
  split; [rewrite Hstep; reflexivity|].
  intros r Hr. cbn [run step fst snd] in Hr. rewrite Hstep in Hr.
  destruct (run fromtimestamp (Streaming "") inputs) as [[acts' st''] unread] eqn:E'.
  simpl in Hr. rewrite !in_app_iff in Hr.
  destruct Hr as [Hr|[[Hr|Hr]|Hr]].
  - discriminate Hr.
  - destruct (bytes_in2 "S" ":" (pre ++ b "S:")); simpl in Hr;
      [destruct Hr | destruct Hr as [Hr|[]]; discriminate Hr].
  - destruct Hr as [Hr|[Hr|[]]]; discriminate Hr.
  - apply (run_device_id fromtimestamp "" inputs (Streaming "")); [now left|].
    rewrite E'. exact Hr.
Qed.

Lemma empty_device_id_witness :
  snd (handshake_step (b "@NTCAAAABBBB" ++ b "S:")) = Streaming "" /\
  forall r, In (Log (LRecord r))
              (fst (fst (run utc_fromtimestamp AwaitingHandshake
                           ((b "@NTCAAAABBBB" ++ b "S:", 2026%Z) :: [])))) ->
            device_id r = ""%string.
Proof.
  apply (empty_device_id utc_fromtimestamp (b "@NTCAAAABBBB") 2026%Z []);
    [apply Nat.leb_le | |]; vm_compute; reflexivity.
Defined.

(** C10 as stated fails: a buffer ending with ["S:"] that holds a
    non-ASCII byte is rejected by [decode('ascii')] and never streams. *)
Lemma empty_device_id_non_ascii_rejected :
  handshake_step (b "@NTC" ++ [xff] ++ b "AAABBBBS:")
    = ([Log LConnected; Log (LUnhandled UnicodeDecodeError)], Closed).
Proof. vm_compute. reflexivity. Qed.

(** ** Claim C6 *)

Lemma decode_telemetry_fields (f : bytes) :
  32 <= List.length f ->
  decode_telemetry f = inr (le32_at f 8, le32_at f 20, le32_at f 24, le32_at f 28).
Proof.
  intros H.
  do 32 (destruct f as [|? f]; [simpl in H; lia|]).
  reflexivity.
Qed.

(** C6: A frame of at least 32 bytes is decoded from the little-endian
    unsigned 32-bit values at [8:12] (timestamp), [20:24] (latitude),
    [24:28] (longitude) and [28:32] (speed), and from no other byte; when
    it passes the year filter the emitted record carries
    [latitude_raw / 1000000], [longitude_raw / 1000000] (Python true
    division) and the speed unchanged.  The spec's example frame decodes
    to timestamp 0, latitude 64, longitude 42 and speed 5, and its record
    holds the floats [64/1e6 = 6.4e-05] and [42/1e6 = 4.2e-05]. *)
Theorem telemetry_fields (fromtimestamp : Z -> datetime) (dev : string)
    (f : bytes) (now_year : Z) :
  32 <= List.length f ->
  decode_telemetry f = inr (le32_at f 8, le32_at f 20, le32_at f 24, le32_at f 28) /\
  (dt_year (fromtimestamp (le32_at f 8)) = now_year ->
   stream_step fromtimestamp dev f now_year =
     ([Log (LRecord {| device_id := dev;
                       timestamp := fromtimestamp (le32_at f 8);
                       latitude := py_truediv (le32_at f 20) 1000000;
                       longitude := py_truediv (le32_at f 24) 1000000;
                       speed := le32_at f 28 |})], Streaming dev)) /\
  decode_telemetry example_frame = inr (0%Z, 64%Z, 42%Z, 5%Z) /\
  latitude (pack_data dev (fromtimestamp 0%Z) 64 42 5) = 6.4e-05%float /\
  longitude (pack_data dev (fromtimestamp 0%Z) 64 42 5) = 4.2e-05%float /\
  speed (pack_data dev (fromtimestamp 0%Z) 64 42 5) = 5%Z.
Proof.
  intros H. pose proof (decode_telemetry_fields f H) as D.
  split; [exact D|]. split.
  - intros Hy. unfold stream_step.
    destruct f as [|x l]; [simpl in H; lia|]. rewrite D, Hy, Z.eqb_refl. reflexivity.
  - repeat split; vm_compute; reflexivity.
Qed.

Lemma telemetry_fields_witness :
  decode_telemetry example_frame = inr (0%Z, 64%Z, 42%Z, 5%Z) /\
  stream_step utc_fromtimestamp "DEV01" example_frame 1970 =
    ([Log (LRecord {| device_id := "DEV01";
                      timestamp := utc_fromtimestamp 0;
                      latitude := py_truediv 64 1000000;
                      longitude := py_truediv 42 1000000;
                      speed := 5 |})], Streaming "DEV01").
Proof.
  destruct (telemetry_fields utc_fromtimestamp "DEV01" example_frame 1970)
    as [D [S _]]; [apply Nat.leb_le; vm_compute; reflexivity|].
  split; [exact D|]. apply S. vm_compute. reflexivity.
Defined.

(** ** Claim C7 *)

(** C7: A frame that decodes but whose local-time year differs from the
    current year emits nothing and leaves the session in [Streaming]. *)
Theorem other_year_dropped (fromtimestamp : Z -> datetime) (dev : string)
    (f : bytes) (now_year ts lat lon spd : Z) :
  decode_telemetry f = inr (ts, lat, lon, spd) ->
  dt_year (fromtimestamp ts) <> now_year ->
  step fromtimestamp (Streaming dev) (f, now_year) = ([], Streaming dev).
Proof.
  intros D Hy. pose proof (decode_telemetry_length f _ D) as L.
  cbn [step fst snd]. unfold stream_step.
  destruct f as [|x l]; [simpl in L; lia|]. rewrite D.
  replace (Z.eqb now_year (dt_year (fromtimestamp ts))) with false
    by (symmetry; apply Z.eqb_neq; congruence).
  reflexivity.
Qed.

Lemma other_year_dropped_witness :
  step utc_fromtimestamp (Streaming "DEV01") (example_frame, 2026%Z)
    = ([], Streaming "DEV01").
Proof.
  apply (other_year_dropped utc_fromtimestamp "DEV01" example_frame 2026 0 64 42 5);
    vm_compute; [reflexivity | discriminate].
Defined.

(** ** Claim C8 *)

(** C8: In [Streaming], a nonempty frame of fewer than 32 bytes logs one
    "sent broken data" event, emits no record and closes the session; the
    reads after it are never made. *)
Theorem short_frame_closes (fromtimestamp : Z -> datetime) (dev : string)
    (f : bytes) (now_year : Z) (rest : list input) :
  f <> [] -> List.length f < 32 ->
  run fromtimestamp (Streaming dev) ((f, now_year) :: rest)
    = ([Log LBrokenData], Closed, rest).
Proof.
  intros Hne Hlen. cbn [run step fst snd]. unfold stream_step.
  destruct f as [|x l]; [contradiction|].
  destruct (decode_telemetry (x :: l)) eqn:D.
  - destruct rest; reflexivity.
  - apply decode_telemetry_length in D. lia.
Qed.

Lemma short_frame_closes_witness :
  run utc_fromtimestamp (Streaming "DEV01")
      ((firstn 31 example_frame, 2026%Z) :: (example_frame, 2026%Z) :: [])
    = ([Log LBrokenData], Closed, (example_frame, 2026%Z) :: []).
Proof.
  apply short_frame_closes; [discriminate | apply Nat.leb_le; vm_compute; reflexivity].
Defined.

(** * Further properties of the module *)

(** ** The checksum *)

Lemma xor_sum_fold_acc (l : bytes) (acc : N) :
  fold_left (fun t x => N.lxor t (Byte.to_N x)) l acc = N.lxor acc (xor_sum l).
Proof.
  unfold xor_sum. revert acc.
  induction l as [|x l IH]; intros acc; cbn [fold_left].
  - now rewrite N.lxor_0_r.
  - rewrite IH, (IH (N.lxor 0 (Byte.to_N x))), N.lxor_0_l, N.lxor_assoc.
    reflexivity.
Qed.

Lemma xor_sum_app (l1 l2 : bytes) :
  xor_sum (l1 ++ l2) = N.lxor (xor_sum l1) (xor_sum l2).
Proof.
  unfold xor_sum at 1. rewrite fold_left_app. apply xor_sum_fold_acc.
Qed.

Lemma xor_sum_cons (x : byte) (l : bytes) :
  xor_sum (x :: l) = N.lxor (Byte.to_N x) (xor_sum l).
Proof.
  change (x :: l) with ([x] ++ l). rewrite xor_sum_app. reflexivity.
Qed.

(** X1: [xor_sum] does not depend on the order of the bytes: two buffers
    that are permutations of each other have the same checksum. *)
Theorem xor_sum_permutation (l1 l2 : bytes) :
  Permutation l1 l2 -> xor_sum l1 = xor_sum l2.
Proof.
  induction 1 as [| x l1 l2 _ IH | x y l | l1 l2 l3 _ IH1 _ IH2].
  - reflexivity.
  - rewrite !xor_sum_cons, IH. reflexivity.
  - rewrite !xor_sum_cons, <- !N.lxor_assoc, (N.lxor_comm (Byte.to_N y)). reflexivity.
  - congruence.
Qed.

Lemma xor_sum_permutation_witness :
  xor_sum (b "S:DEV01") = xor_sum (b "10VED:S").
Proof.
  apply xor_sum_permutation. vm_compute.
  apply Permutation_rev.
Defined.

(** X2: appending a buffer's checksum to it (what [header.append] does
    with [xor_sum(data)]) never fails, and the XOR of the extended buffer
    is 0. *)
Theorem xor_sum_append_cancels (buffer : bytes) :
  exists buffer', bytearray_append buffer (xor_sum buffer) = inr buffer' /\
                  xor_sum buffer' = 0%N.
Proof.
  destruct (byte_of_xor_sum buffer) as [x [Ex Hx]].
  exists (buffer ++ [x]). unfold bytearray_append. rewrite Ex. split; [reflexivity|].
  rewrite xor_sum_app. unfold xor_sum at 2. simpl.
  rewrite Hx. apply N.lxor_nilpotent.
Qed.

(** ** The layout of the handshake frame *)

Lemma byte_of_N_mod_to_N (n : N) : Byte.to_N (byte_of_N_mod n) = (n mod 256)%N.
Proof.
  unfold byte_of_N_mod. destruct (Byte.of_N (n mod 256)) eqn:E.
  - now apply Byte.to_of_N.
  - apply Byte.of_N_None_iff in E. pose proof (N.mod_lt n 256). lia.
Qed.

Lemma make_handshake_frame_4_4 (r0 r1 r2 r3 s0 s1 s2 s3 : byte) (data : bytes) :
  (N.of_nat (List.length data) <= 65535)%N ->
  exists pc hc l0 l1,
    make_handshake [r0; r1; r2; r3] [s0; s1; s2; s3] data =
      ([], Some ([x40; x4e; x54; x43; s0; s1; s2; s3; r0; r1; r2; r3; l0; l1; pc; hc] ++ data)) /\
    Byte.to_N pc = xor_sum data /\
    Byte.to_N hc = xor_sum [x40; x4e; x54; x43; s0; s1; s2; s3; r0; r1; r2; r3; l0; l1; pc] /\
    (Byte.to_N l0 + 256 * Byte.to_N l1 = N.of_nat (List.length data))%N.
Proof.
  intros Hd. unfold make_handshake, make_handshake_try, to_bytes_2_little.
  replace (N.leb 65536 (N.of_nat (List.length data))) with false
    by (symmetry; apply N.leb_gt; lia).
  destruct (byte_of_xor_sum data) as [pc [Ep Hp]].
  unfold bytearray_append. rewrite Ep.
  unfold bytearray_setitem. cbn -[xor_sum Byte.of_N byte_of_N_mod N.mul].
  match goal with |- context [Byte.of_N (xor_sum ?l)] =>
    destruct (byte_of_xor_sum l) as [hc [Eh Hh]]; rewrite Eh end.
  do 4 eexists. split; [reflexivity|].
  split; [exact Hp|]. split; [exact Hh|].
  rewrite !byte_of_N_mod_to_N.
  set (m := N.of_nat (List.length data)) in *.
  rewrite (N.mod_small (m / 256)) by (apply N.Div0.div_lt_upper_bound; lia).
  pose proof (N.div_mod m 256 ltac:(discriminate)). lia.
Qed.

(** X3: for 4-byte ids and a payload of at most 65535 bytes, the frame of
    [make_handshake] is [16 + len(payload)] bytes long, starts with
    ["@NTC"], carries the payload from offset 16 on, holds [len(payload)]
    little-endian at offsets 12-13, and its 16-byte header XORs to 0 (the
    header checksum byte cancels the 15 bytes before it). *)
Theorem make_handshake_frame_layout (senderId receiverId data : bytes) :
  List.length senderId = 4 -> List.length receiverId = 4 ->
  (N.of_nat (List.length data) <= 65535)%N ->
  exists frame,
    make_handshake receiverId senderId data = ([], Some frame) /\
    List.length frame = 16 + List.length data /\
    firstn 4 frame = b "@NTC" /\
    skipn 16 frame = data /\
    (Byte.to_N (nth 12 frame x00) + 256 * Byte.to_N (nth 13 frame x00)
       = N.of_nat (List.length data))%N /\
    xor_sum (firstn 16 frame) = 0%N.
Proof.
  intros Hs Hr Hd.
  destruct (length_4 _ Hs) as (s0 & s1 & s2 & s3 & ->).
  destruct (length_4 _ Hr) as (r0 & r1 & r2 & r3 & ->).
  destruct (make_handshake_frame_4_4 r0 r1 r2 r3 s0 s1 s2 s3 data Hd)
    as (pc & hc & l0 & l1 & E & _ & Hhc & Hlen).
  rewrite E. eexists. split; [reflexivity|].
  split; [rewrite length_app; reflexivity|].
  split; [reflexivity|]. split; [reflexivity|]. split; [exact Hlen|].
  match goal with |- xor_sum (firstn 16 (?h ++ data)) = _ =>
    replace (firstn 16 (h ++ data)) with
      ([x40; x4e; x54; x43; s0; s1; s2; s3; r0; r1; r2; r3; l0; l1; pc] ++ [hc])
      by reflexivity end.
  rewrite xor_sum_app. unfold xor_sum at 2. simpl.
  rewrite Hhc. apply N.lxor_nilpotent.
Qed.

Lemma make_handshake_frame_layout_witness :
  exists frame,
    make_handshake (b "BBBB") (b "AAAA") (b "S:DEV01") = ([], Some frame) /\
    List.length frame = 16 + List.length (b "S:DEV01") /\
    firstn 4 frame = b "@NTC" /\
    skipn 16 frame = b "S:DEV01" /\
    (Byte.to_N (nth 12 frame x00) + 256 * Byte.to_N (nth 13 frame x00)
       = N.of_nat (List.length (b "S:DEV01")))%N /\
    xor_sum (firstn 16 frame) = 0%N.
Proof.
  apply make_handshake_frame_layout; vm_compute; [reflexivity | reflexivity | discriminate].
Defined.

(** ** When the handshake handler replies *)

(** Without [b"S:"] in the buffer, [split("S:")] gives the whole text as
    its only piece. *)
Lemma split_S_no_marker (data : bytes) :
  bytes_in2 "S" ":" data = false ->
  split_S (string_of_list_byte data) = [string_of_list_byte data].
Proof.
  unfold split_S. induction data as [|x l IH]; intros Hin; [reflexivity|].
  destruct l as [|y l]; [reflexivity|].
  rewrite bytes_in2_cons2 in Hin. apply orb_false_iff in Hin as [Hxy Hrest].
  rewrite string_of_list_byte_cons, (string_of_list_byte_cons y), split2_cons2.
  change "S"%char with (ascii_of_byte "S"%byte).
  change ":"%char with (ascii_of_byte ":"%byte).
  rewrite !ascii_eqb_of_byte, Hxy.
  change (ascii_of_byte "S"%byte) with "S"%char.
  change (ascii_of_byte ":"%byte) with ":"%char.
  rewrite <- (string_of_list_byte_cons y l), (IH Hrest). reflexivity.
Qed.

Ltac no_write_in H :=
  repeat progress (simpl in H; rewrite ?in_app_iff, ?in_map_iff in H);
  repeat match type of H with
  | _ \/ _ => destruct H as [H|H]
  | exists _, _ => let e := fresh in destruct H as [? [H e]]
  | False => destruct H
  | Log _ = Write _ => discriminate H
  end.

(** The two outcomes of the handshake handler: it closes without writing
    anything, or it writes exactly one reply and streams. *)
Lemma handshake_step_cases (data : bytes) :
  (snd (handshake_step data) = Closed /\
   forall w, ~ In (Write w) (fst (handshake_step data))) \/
  (exists w dev,
     handshake_step data = ([Log LConnected; Write w; Log LHandshakeGood], Streaming dev) /\
     12 <= List.length data /\ forallb is_ascii_byte data = true /\
     bytes_in2 "S" ":" data = true /\
     make_handshake (py_slice data 4 8) (py_slice data 8 12) ack = ([], Some w) /\
     nth_error (split_S (string_of_list_byte data)) 1 = Some dev).
Proof.
  destruct data as [|x l].
  { left. split; [reflexivity|]. intros w H. no_write_in H. }
  unfold handshake_step, handshake_ids. cbv beta iota.
  destruct (ascii_decode (x :: l)) as [text|] eqn:A.
  2: { left. split; [reflexivity|]. intros w H.
       destruct (bytes_in2 "S" ":" (x :: l)); no_write_in H. }
  assert (Ht : text = string_of_list_byte (x :: l) /\ forallb is_ascii_byte (x :: l) = true).
  { unfold ascii_decode in A. destruct (forallb is_ascii_byte (x :: l)); [|discriminate A].
    injection A as <-. split; reflexivity. }
  destruct Ht as [-> Hasc].
  destruct (nth_error (split_S (string_of_list_byte (x :: l))) 1) as [dev|] eqn:Hn.
  2: { left. split; [reflexivity|]. intros w H.
       destruct (bytes_in2 "S" ":" (x :: l)); no_write_in H. }
  destruct (make_handshake (py_slice (x :: l) 4 8) (py_slice (x :: l) 8 12) ack)
    as [logs [w|]] eqn:M; cbv beta iota.
  2: { left. split; [reflexivity|]. intros w H.
       destruct (bytes_in2 "S" ":" (x :: l)); no_write_in H. }
  assert (Hlogs : logs = []).
  { unfold make_handshake in M. destruct (make_handshake_try _ _ _); congruence. }
  subst logs.
  assert (Hin : bytes_in2 "S" ":" (x :: l) = true).
  { destruct (bytes_in2 "S" ":" (x :: l)) eqn:E; [reflexivity|].
    rewrite (split_S_no_marker _ E) in Hn. discriminate Hn. }
  assert (Hlen : 12 <= List.length (x :: l)).
  { destruct (Nat.le_gt_cases 12 (List.length (x :: l))) as [H|H]; [exact H|].
    rewrite make_handshake_short_ids in M; [discriminate M | vm_compute; discriminate |].
    unfold py_slice. rewrite !length_firstn, !length_skipn. lia. }
  right. exists w, dev. rewrite Hin. repeat split; assumption.
Qed.

(** X4: the handshake handler writes a reply, and the session goes to
    [Streaming], exactly when the first read is at least 12 bytes long,
    all ASCII, and contains [b"S:"]; on every other first read it writes
    nothing and the session ends. *)
Theorem handshake_reply_iff (data : bytes) :
  ((exists w, In (Write w) (fst (handshake_step data))) <->
   (12 <= List.length data /\ forallb is_ascii_byte data = true /\
    bytes_in2 "S" ":" data = true)) /\
  ((exists dev, snd (handshake_step data) = Streaming dev) <->
   (12 <= List.length data /\ forallb is_ascii_byte data = true /\
    bytes_in2 "S" ":" data = true)).
Proof.
  assert (Back : 12 <= List.length data -> forallb is_ascii_byte data = true ->
                 bytes_in2 "S" ":" data = true ->
                 exists w dev, handshake_step data
                   = ([Log LConnected; Write w; Log LHandshakeGood], Streaming dev)).
  { intros Hlen Hasc Hin.
    destruct (split_S_has_second _ Hin) as [dev Hdev].
    destruct (handshake_step_streams _ dev Hlen Hasc Hdev) as [w [_ E]].
    rewrite Hin in E. exists w, dev. exact E. }
  destruct (handshake_step_cases data) as [[Hc Hw] | (w & dev & E & Hlen & Hasc & Hin & _)].
  - split; split.
    + intros [w Hw']. destruct (Hw w Hw').
    + intros (Hlen & Hasc & Hin). destruct (Back Hlen Hasc Hin) as (w & dev & E).
      rewrite E in Hc. discriminate Hc.
    + intros [dev Hd]. congruence.
    + intros (Hlen & Hasc & Hin). destruct (Back Hlen Hasc Hin) as (w & dev & E).
      rewrite E in Hc. discriminate Hc.
  - rewrite E. split; split; auto.
    + intros _. exists w. simpl. auto.
    + intros _. exists dev. reflexivity.
Qed.

(** X5: every reply the handshake handler writes is a well-formed
    19-byte frame: magic ["@NTC"], ids taken from the inbound [data[8:12]]
    and [data[4:8]] (swapped), length field 3, payload [b"*<S"], a valid
    payload checksum at offset 14 and a header that XORs to 0. *)
Theorem handshake_reply_well_formed (data w : bytes) :
  In (Write w) (fst (handshake_step data)) ->
  List.length w = 19 /\ firstn 4 w = b "@NTC" /\
  handshake_ids w = (py_slice data 8 12, py_slice data 4 8) /\
  nth 12 w x00 = x03 /\ nth 13 w x00 = x00 /\
  skipn 16 w = ack /\
  option_map Byte.to_N (nth_error w 14) = Some (xor_sum ack) /\
  xor_sum (firstn 16 w) = 0%N.
Proof.
  intros H.
  destruct (handshake_step_cases data) as [[_ Hw] | (w' & dev & E & Hlen & _ & _ & M & _)].
  { destruct (Hw w H). }
  rewrite E in H. simpl in H.
  destruct H as [H|[H|[H|[]]]]; try discriminate H. injection H as <-.
  pose proof (py_slice_length_4 data 4) as L4. pose proof (py_slice_length_4 data 8) as L8.
  simpl Nat.add in L4, L8.
  destruct (length_4 _ (L4 ltac:(lia))) as (r0 & r1 & r2 & r3 & E4).
  destruct (length_4 _ (L8 ltac:(lia))) as (s0 & s1 & s2 & s3 & E8).
  rewrite E4, E8 in M |- *.
  destruct (make_handshake_frame_4_4 r0 r1 r2 r3 s0 s1 s2 s3 ack)
    as (pc & hc & l0 & l1 & F & Hpc & Hhc & Hl); [vm_compute; discriminate|].
  rewrite F in M. injection M as <-.
  assert (Hl0 : l0 = x03 /\ l1 = x00).
  { assert (B0 := Byte.to_N_bounded l0). assert (B1 := Byte.to_N_bounded l1).
    change (N.of_nat (List.length ack)) with 3%N in Hl.
    assert (Byte.to_N l0 = 3%N /\ Byte.to_N l1 = 0%N) as [A0 A1] by lia.
    apply Byte.to_of_N_iff in A0, A1. vm_compute in A0, A1.
    split; congruence. }
  destruct Hl0 as [-> ->].
  repeat split; try reflexivity.
  - simpl. rewrite Hpc. reflexivity.
  - match goal with |- xor_sum (firstn 16 ?f) = _ =>
      replace (firstn 16 f) with
        ([x40; x4e; x54; x43; s0; s1; s2; s3; r0; r1; r2; r3; x03; x00; pc] ++ [hc])
        by reflexivity end.
    rewrite xor_sum_app. unfold xor_sum at 2. simpl.
    rewrite Hhc. apply N.lxor_nilpotent.
Qed.

Lemma handshake_reply_well_formed_witness :
  let w := b "@NTCBBBBAAAA" ++ [x03; x00] ++ b "E_*<S" in
  In (Write w) (fst (handshake_step (b "@NTCAAAABBBBxxxxS:DEV01"))) /\
  List.length w = 19 /\ firstn 4 w = b "@NTC" /\
  handshake_ids w = (py_slice (b "@NTCAAAABBBBxxxxS:DEV01") 8 12,
                     py_slice (b "@NTCAAAABBBBxxxxS:DEV01") 4 8) /\
  nth 12 w x00 = x03 /\ nth 13 w x00 = x00 /\
  skipn 16 w = ack /\
  option_map Byte.to_N (nth_error w 14) = Some (xor_sum ack) /\
  xor_sum (firstn 16 w) = 0%N.
Proof.
  intros w. assert (H : In (Write w) (fst (handshake_step (b "@NTCAAAABBBBxxxxS:DEV01")))).
  { vm_compute. right. left. reflexivity. }
  split; [exact H|]. exact (handshake_reply_well_formed _ _ H).
Defined.

(** ** The handshake handler's failure paths *)

(** X6: an ASCII first read without [b"S:"] only logs the "Device id is
    missing" warning; the following [split("S:")[1]] then raises
    [IndexError], which escapes [handle]: nothing is written and the
    session ends. *)
Theorem handshake_missing_marker (data : bytes) :
  data <> [] -> forallb is_ascii_byte data = true ->
  bytes_in2 "S" ":" data = false ->
  handshake_step data =
    ([Log LConnected; Log LDeviceIdMissing; Log (LUnhandled IndexError)], Closed).
Proof.
  intros Hne Hasc Hin.
  assert (Hn : nth_error (split_S (string_of_list_byte data)) 1 = None).
  { rewrite (split_S_no_marker _ Hin). reflexivity. }
  destruct data as [|x l]; [contradiction|].
  unfold handshake_step, handshake_ids, ascii_decode.
  rewrite Hasc, Hin, Hn. reflexivity.
Qed.

Lemma handshake_missing_marker_witness :
  handshake_step (b "@NTCAAAABBBBDEV01") =
    ([Log LConnected; Log LDeviceIdMissing; Log (LUnhandled IndexError)], Closed).
Proof.
  apply handshake_missing_marker; [discriminate | vm_compute; reflexivity ..].
Defined.

(** X7: an ASCII first read that contains [b"S:"] but is shorter than 12
    bytes gets past the device-id parsing; [make_handshake] is then called
    with ids of fewer than 8 bytes in total, its [header[15] = ...] raises
    [IndexError], re-raised as [RuntimeError], logged, and [None] is
    returned; [writer.write(None)] raises [TypeError].  Nothing is written
    and the session ends. *)
Theorem handshake_short_buffer (data : bytes) :
  List.length data < 12 -> forallb is_ascii_byte data = true ->
  bytes_in2 "S" ":" data = true ->
  handshake_step data =
    ([Log LConnected; Log (LHandshakeFailed RuntimeError); Log (LUnhandled TypeError)],
     Closed).
Proof.
  intros Hlen Hasc Hin.
  destruct (split_S_has_second _ Hin) as [dev Hdev].
  destruct data as [|x l]; [discriminate Hin|].
  unfold handshake_step, handshake_ids, ascii_decode.
  rewrite Hasc, Hin, Hdev,
    (make_handshake_short_ids (py_slice (x :: l) 4 8) (py_slice (x :: l) 8 12) ack).
  - reflexivity.
  - vm_compute. discriminate.
  - unfold py_slice. rewrite !length_firstn, !length_skipn. lia.
Qed.

Lemma handshake_short_buffer_witness :
  handshake_step (b "@NTCAS:DEV") =
    ([Log LConnected; Log (LHandshakeFailed RuntimeError); Log (LUnhandled TypeError)],
     Closed).
Proof.
  apply handshake_short_buffer; [apply Nat.ltb_lt | |]; vm_compute; reflexivity.
Defined.

(** ** The connection as a whole *)

Lemma filter_is_write_nil (l : list action) :
  (forall w, ~ In (Write w) l) -> filter is_write l = [].
Proof.
  induction l as [|a l IH]; intros H; [reflexivity|].
  destruct a as [e|w]; simpl.
  - apply IH. intros w Hw. apply (H w). right. exact Hw.
  - destruct (H w). left. reflexivity.
Qed.

Lemma stream_step_no_write fromtimestamp dev more_data now_year :
  filter is_write (fst (stream_step fromtimestamp dev more_data now_year)) = [].
Proof.
  unfold stream_step. destruct more_data as [|x l]; [reflexivity|].
  destruct (decode_telemetry (x :: l)) as [e|[[[ts lat] lon] spd]]; [reflexivity|].
  destruct (Z.eqb now_year (dt_year (fromtimestamp ts))); reflexivity.
Qed.

Lemma run_stream_no_write fromtimestamp (inputs : list input) st :
  (exists dev, st = Streaming dev) \/ st = Closed ->
  filter is_write (fst (fst (run fromtimestamp st inputs))) = [].
Proof.
  revert st. induction inputs as [|[more_data now_year] inputs IH]; intros st Hst.
  - destruct Hst as [[dev ->]| ->]; reflexivity.
  - destruct Hst as [[dev ->]| ->]; [|reflexivity].
    cbn [run step fst snd].
    destruct (stream_step fromtimestamp dev more_data now_year) as [acts st'] eqn:E.
    pose proof (stream_step_no_write fromtimestamp dev more_data now_year) as W.
    apply stream_step_device_id in E as E'. destruct E' as [Hst' _].
    rewrite E in W. simpl in W.
    specialize (IH st' ltac:(destruct Hst'; [left; eauto | right; assumption])).
    destruct (run fromtimestamp st' inputs) as [[acts' st''] unread].
    simpl in *. rewrite filter_app, W, IH. reflexivity.
Qed.

(** X8: over a whole connection the server writes at most once: the only
    write is the handshake reply to the first read; the read loop of
    [parse_device_data] never writes to the device. *)
Theorem connection_writes_once (fromtimestamp : Z -> datetime) (dev : string)
    (data : bytes) (y : Z) (rest inputs : list input) :
  filter is_write (fst (fst (run fromtimestamp AwaitingHandshake ((data, y) :: rest))))
    = filter is_write (fst (handshake_step data)) /\
  List.length (filter is_write (fst (handshake_step data))) <= 1 /\
  filter is_write (fst (fst (run fromtimestamp (Streaming dev) inputs))) = [].
Proof.
  split; [|split].
  - cbn [run step fst snd].
    destruct (handshake_step_cases data) as [[Hc Hw] | (w & d & E & _)].
    + destruct (handshake_step data) as [acts st] eqn:E. simpl in Hc, Hw. subst st.
      destruct rest; simpl; rewrite app_nil_r; reflexivity.
    + rewrite E.
      destruct (run fromtimestamp (Streaming d) rest) as [[acts' st''] unread] eqn:E'.
      simpl.
      pose proof (run_stream_no_write fromtimestamp rest (Streaming d)) as R.
      rewrite E' in R. simpl in R. rewrite R by (left; eauto). reflexivity.
  - destruct (handshake_step_cases data) as [[_ Hw] | (w & d & E & _)].
    + rewrite (filter_is_write_nil _ Hw). simpl. lia.
    + rewrite E. simpl. lia.
  - apply run_stream_no_write. left. eauto.
Qed.

(** X9: every record a connection emits carries the device id that its
    handshake parsed, whatever the later reads are. *)
Theorem session_records_device_id (fromtimestamp : Z -> datetime) (data : bytes)
    (y : Z) (rest : list input) (dev : string) (r : telemetry) :
  snd (handshake_step data) = Streaming dev ->
  In (Log (LRecord r)) (fst (fst (run fromtimestamp AwaitingHandshake ((data, y) :: rest)))) ->
  device_id r = dev.
Proof.
  intros Hs Hr. cbn [run step fst snd] in Hr.
  destruct (handshake_step_cases data) as [[Hc _] | (w & d & E & _)].
  { rewrite Hs in Hc. discriminate Hc. }
  rewrite E in Hs, Hr. simpl in Hs. injection Hs as <-.
  destruct (run fromtimestamp (Streaming d) rest) as [[acts' st''] unread] eqn:E'.
  simpl in Hr. destruct Hr as [Hr|[Hr|[Hr|Hr]]]; try discriminate Hr.
  apply (run_device_id fromtimestamp d rest (Streaming d)); [now left|].
  rewrite E'. exact Hr.
Qed.

Lemma session_records_device_id_witness :
  snd (handshake_step (b "@NTCAAAABBBBxxxxS:DEV01")) = Streaming "DEV01" /\
  In (Log (LRecord (pack_data "DEV01" (utc_fromtimestamp 0) 64 42 5)))
     (fst (fst (run utc_fromtimestamp AwaitingHandshake
                  ((b "@NTCAAAABBBBxxxxS:DEV01", 2026%Z) :: (example_frame, 1970%Z) :: [])))) /\
  device_id (pack_data "DEV01" (utc_fromtimestamp 0) 64 42 5) = "DEV01"%string.
Proof.
  assert (Hs : snd (handshake_step (b "@NTCAAAABBBBxxxxS:DEV01")) = Streaming "DEV01")
    by (vm_compute; reflexivity).
  assert (Hr : In (Log (LRecord (pack_data "DEV01" (utc_fromtimestamp 0) 64 42 5)))
     (fst (fst (run utc_fromtimestamp AwaitingHandshake
                  ((b "@NTCAAAABBBBxxxxS:DEV01", 2026%Z) :: (example_frame, 1970%Z) :: []))))).
  { vm_compute. repeat first [left; reflexivity | right]. }
  split; [exact Hs|]. split; [exact Hr|].
  exact (session_records_device_id _ _ _ _ _ _ Hs Hr).
Defined.

Lemma le32_at_bounds (f : bytes) (i : nat) : (0 <= le32_at f i < 4294967296)%Z.
Proof.
  unfold le32_at.
  pose proof (Byte.to_N_bounded (nth i f x00)).
  pose proof (Byte.to_N_bounded (nth (i + 1) f x00)).
  pose proof (Byte.to_N_bounded (nth (i + 2) f x00)).
  pose proof (Byte.to_N_bounded (nth (i + 3) f x00)).
  lia.
Qed.

Lemma stream_step_record fromtimestamp dev f now_year r :
  In (Log (LRecord r)) (fst (stream_step fromtimestamp dev f now_year)) ->
  32 <= List.length f /\
  r = pack_data dev (fromtimestamp (le32_at f 8)) (le32_at f 20) (le32_at f 24) (le32_at f 28) /\
  dt_year (fromtimestamp (le32_at f 8)) = now_year.
Proof.
  unfold stream_step. destruct f as [|x l]; [intros [E|[]]; discriminate E|].
  destruct (decode_telemetry (x :: l)) as [e|v] eqn:D; [intros [E|[]]; discriminate E|].
  pose proof (decode_telemetry_length _ _ D) as L.
  rewrite (decode_telemetry_fields _ L) in D. injection D as <-.
  destruct (Z.eqb now_year (dt_year (fromtimestamp (le32_at (x :: l) 8)))) eqn:Y;
    [|intros []].
  intros [E|[]]. injection E as <-. apply Z.eqb_eq in Y. auto.
Qed.

(** X10: every record emitted by the read loop comes from one of the reads:
    a frame of at least 32 bytes whose timestamp, latitude, longitude and
    speed are the little-endian words at offsets 8, 20, 24 and 28, read
    while the current year was the year of the record's timestamp; its
    speed is an unsigned 32-bit value. *)
Theorem stream_records_from_frames (fromtimestamp : Z -> datetime) (dev : string)
    (inputs : list input) (r : telemetry) :
  In (Log (LRecord r)) (fst (fst (run fromtimestamp (Streaming dev) inputs))) ->
  exists f y, In (f, y) inputs /\ 32 <= List.length f /\
    r = pack_data dev (fromtimestamp (le32_at f 8)) (le32_at f 20) (le32_at f 24)
          (le32_at f 28) /\
    dt_year (timestamp r) = y /\ (0 <= speed r < 4294967296)%Z.
Proof.
  assert (G : forall st, (st = Streaming dev \/ st = Closed) ->
            In (Log (LRecord r)) (fst (fst (run fromtimestamp st inputs))) ->
            exists f y, In (f, y) inputs /\ 32 <= List.length f /\
              r = pack_data dev (fromtimestamp (le32_at f 8)) (le32_at f 20) (le32_at f 24)
                    (le32_at f 28) /\
              dt_year (fromtimestamp (le32_at f 8)) = y).
  { induction inputs as [|[f y] inputs IH]; intros st Hst Hr.
    - destruct Hst as [->| ->]; destruct Hr.
    - destruct Hst as [->| ->]; [|destruct Hr].
      cbn [run step fst snd] in Hr.
      destruct (stream_step fromtimestamp dev f y) as [acts st'] eqn:E.
      apply stream_step_device_id in E as E'. destruct E' as [Hst' _].
      destruct (run fromtimestamp st' inputs) as [[acts' st''] unread] eqn:E''.
      simpl in Hr. apply in_app_or in Hr as [Hr|Hr].
      + assert (Hr' : In (Log (LRecord r)) (fst (stream_step fromtimestamp dev f y)))
          by (rewrite E; exact Hr).
        apply stream_step_record in Hr' as (L & R & Y).
        exists f, y. split; [left; reflexivity | auto].
      + destruct (IH st' Hst') as (f' & y' & Hin & Rest); [rewrite E''; exact Hr|].
        exists f', y'. split; [right; exact Hin | exact Rest]. }
  intros Hr. destruct (G _ (or_introl eq_refl) Hr) as (f & y & Hin & L & R & Y).
  exists f, y. repeat split; try assumption.
  - rewrite R. exact Y.
  - rewrite R. apply le32_at_bounds.
  - rewrite R. apply le32_at_bounds.
Qed.

Lemma stream_records_from_frames_witness :
  In (Log (LRecord (pack_data "DEV01" (utc_fromtimestamp 0) 64 42 5)))
     (fst (fst (run utc_fromtimestamp (Streaming "DEV01") ((example_frame, 1970%Z) :: [])))) /\
  exists f y, In (f, y) ((example_frame, 1970%Z) :: []) /\ 32 <= List.length f /\
    pack_data "DEV01" (utc_fromtimestamp 0) 64 42 5 =
      pack_data "DEV01" (utc_fromtimestamp (le32_at f 8)) (le32_at f 20) (le32_at f 24)
        (le32_at f 28) /\
    dt_year (timestamp (pack_data "DEV01" (utc_fromtimestamp 0) 64 42 5)) = y /\
    (0 <= speed (pack_data "DEV01" (utc_fromtimestamp 0) 64 42 5) < 4294967296)%Z.
Proof.
  assert (Hr : In (Log (LRecord (pack_data "DEV01" (utc_fromtimestamp 0) 64 42 5)))
     (fst (fst (run utc_fromtimestamp (Streaming "DEV01") ((example_frame, 1970%Z) :: []))))).
  { vm_compute. left. reflexivity. }
  split; [exact Hr|]. exact (stream_records_from_frames _ _ _ _ Hr).
Defined.

(** X11: on reads that are all frames of at least 32 bytes, the read loop
    never stops: every read is consumed, the session stays in
    [Streaming dev], and the output is exactly one record per frame whose
    timestamp year equals the current year, in the order of the frames. *)
Theorem stream_long_frames (fromtimestamp : Z -> datetime) (dev : string)
    (inputs : list input) :
  Forall (fun i => 32 <= List.length (fst i)) inputs ->
  run fromtimestamp (Streaming dev) inputs =
    (flat_map (fun i =>
       if Z.eqb (snd i) (dt_year (fromtimestamp (le32_at (fst i) 8)))
       then [Log (LRecord (pack_data dev (fromtimestamp (le32_at (fst i) 8))
                             (le32_at (fst i) 20) (le32_at (fst i) 24) (le32_at (fst i) 28)))]
       else []) inputs,
     Streaming dev, []).
Proof.
  induction inputs as [|[f y] inputs IH]; intros H; [reflexivity|].
  inversion H as [|? ? Hf Hrest]; subst. simpl fst in Hf.
  cbn [run step fst snd flat_map]. unfold stream_step.
  destruct f as [|x l]; [simpl in Hf; lia|].
  rewrite (decode_telemetry_fields _ Hf).
  destruct (Z.eqb y (dt_year (fromtimestamp (le32_at (x :: l) 8))));
    rewrite (IH Hrest); reflexivity.
Qed.

Lemma stream_long_frames_witness :
  run utc_fromtimestamp (Streaming "DEV01")
      ((example_frame, 1970%Z) :: (example_frame, 2026%Z) :: (example_frame, 1970%Z) :: [])
    = ([Log (LRecord (pack_data "DEV01" (utc_fromtimestamp 0) 64 42 5));
        Log (LRecord (pack_data "DEV01" (utc_fromtimestamp 0) 64 42 5))],
       Streaming "DEV01", []).
Proof.
  rewrite stream_long_frames.
  - vm_compute. reflexivity.
  - repeat constructor; apply Nat.leb_le; vm_compute; reflexivity.
Defined.

(** X12: one iteration of the read loop ends the session exactly when the
    read is shorter than 32 bytes: an empty read logs the disconnection,
    a nonempty short one logs "sent broken data"; a longer read never ends
    it. *)
Theorem stream_step_closes_iff_short (fromtimestamp : Z -> datetime) (dev : string)
    (f : bytes) (now_year : Z) :
  (snd (stream_step fromtimestamp dev f now_year) = Closed <-> List.length f < 32) /\
  (List.length f < 32 ->
   stream_step fromtimestamp dev f now_year =
     ([Log (match f with [] => LDisconnectedAfterHandshake | _ :: _ => LBrokenData end)],
      Closed)).
Proof.
  assert (Short : List.length f < 32 ->
            stream_step fromtimestamp dev f now_year =
              ([Log (match f with [] => LDisconnectedAfterHandshake | _ :: _ => LBrokenData end)],
               Closed)).
  { intros L. unfold stream_step. destruct f as [|x l]; [reflexivity|].
    destruct (decode_telemetry (x :: l)) eqn:D; [reflexivity|].
    apply decode_telemetry_length in D. lia. }
  split; [|exact Short]. split.
  - intros Hc. destruct (Nat.lt_ge_cases (List.length f) 32) as [L|L]; [exact L|].
    unfold stream_step in Hc. destruct f as [|x l]; [simpl in L; lia|].
    rewrite (decode_telemetry_fields _ L) in Hc.
    destruct (Z.eqb _ _); discriminate Hc.
  - intros L. rewrite (Short L). reflexivity.
Qed.

Lemma stream_step_closes_iff_short_witness :
  stream_step utc_fromtimestamp "DEV01" (firstn 31 example_frame) 2026
    = ([Log LBrokenData], Closed) /\
  stream_step utc_fromtimestamp "DEV01" [] 2026 = ([Log LDisconnectedAfterHandshake], Closed).
Proof.
  split.
  - apply (proj2 (stream_step_closes_iff_short utc_fromtimestamp "DEV01" (firstn 31 example_frame) 2026)).
    apply Nat.leb_le. vm_compute. reflexivity.
  - apply (proj2 (stream_step_closes_iff_short utc_fromtimestamp "DEV01" [] 2026)).
    apply Nat.leb_le. vm_compute. reflexivity.
Defined.


(** X14: a nonempty first read holding a byte [>= 0x80] is rejected by
    [decode('ascii')]: after the optional "Device id is missing" warning
    the [UnicodeDecodeError] escapes [handle], nothing is written and the
    session ends, even when the ids and [b"S:"] are in place. *)
Theorem handshake_non_ascii (data : bytes) :
  data <> [] -> forallb is_ascii_byte data = false ->
  handshake_step data =
    (Log LConnected :: (if bytes_in2 "S" ":" data then [] else [Log LDeviceIdMissing])
       ++ [Log (LUnhandled UnicodeDecodeError)], Closed).
Proof.
  intros Hne Hasc. destruct data as [|x l]; [contradiction|].
  unfold handshake_step, handshake_ids, ascii_decode. rewrite Hasc. reflexivity.
Qed.

Lemma handshake_non_ascii_witness :
  handshake_step (b "@NTCAAAABBBB" ++ [xc3; xa9] ++ b "S:DEV01") =
    ([Log LConnected; Log (LUnhandled UnicodeDecodeError)], Closed).
Proof.
  apply handshake_non_ascii; [discriminate | vm_compute; reflexivity].
Defined.
